(** * The UCloud docker-machine driver (ucloud.go)

    A shallow embedding of the driver of package [ucloud] and the properties
    its specification states about it.

    Conventions of the embedding:
    - a Go [string] is a [string]; a Go [int] is a [Z];
    - a Go [error] is [option string]: [nil] is [None], and a non-nil error
      is its message.  Every error the driver builds comes from [fmt.Errorf]
      with [%s] verbs only, so it is a plain message error, and every error
      the driver receives is only ever formatted with [%s];
    - a method on [*Driver] is a computation in the state monad [M] over the
      driver, the remote provider's state and the log of calls made to the
      helper functions of the package;
    - the [log.Infof] / [log.Debugf] lines and [time.Sleep] have no effect on
      what the claims are about and are left out. *)

From Stdlib Require Import String Ascii List ZArith Bool Lia DecimalString.
Import ListNotations.
Local Open Scope string_scope.

(** ** Go errors *)

Definition error : Set := option string.
Definition nil : error := None.

(** [fmt.Errorf] applied to a format whose verbs have been substituted. *)
Definition Errorf (msg : string) : error := Some msg.

(** [%d] of a non-negative count. *)
Definition itoa (n : nat) : string := NilEmpty.string_of_uint (Nat.to_uint n).

(** ** libmachine: package [state] *)

Module state.
(** [None State = iota], then the others in the order of the package.
    [None] is the zero value of the type. *)
Inductive State : Set :=
| None | Running | Paused | Saved | Stopped | Stopping | Starting | Error
| Timeout.

Definition eqb (a b : State) : bool :=
  match a, b with
  | None, None | Running, Running | Paused, Paused | Saved, Saved
  | Stopped, Stopped | Stopping, Stopping | Starting, Starting
  | Error, Error | Timeout, Timeout => true
  | _, _ => false
  end.
End state.

(** ** libmachine: package [mcnflag] *)

Module mcnflag.
(** The [interface{}] value of a flag, as far as the driver uses it. *)
Inductive Value : Set :=
| NoValue
| StringValue (s : string)
| IntValue (n : Z).

Record Flag : Set := mkFlag {
  Name   : string;
  Usage  : string;
  Value_ : Value;     (* the field [Value] *)
  EnvVar : string
}.
End mcnflag.

(** ** libmachine: package [drivers] *)

Module drivers.
(** The fields of [drivers.BaseDriver] the driver touches. *)
Record BaseDriver : Set := mkBaseDriver {
  IPAddress    : string;
  MachineName  : string;
  SSHUser      : string;
  SSHPort      : Z;
  ArtifactPath : string
}.

(** The interface [drivers.DriverOptions]: flag values by flag name. *)
Record DriverOptions : Type := mkDriverOptions {
  String : string -> string;
  Int    : string -> Z;
  Bool   : string -> bool
}.
End drivers.

(** ** The driver *)

Record Driver : Set := mkDriver {
  BaseDriver        : drivers.BaseDriver;
  PublicKey         : string;
  PrivateKey        : string;
  Region            : string;
  ImageId           : string;
  Password          : string;
  UhostID           : string;
  CPU               : Z;
  Memory            : Z;
  DiskSpace         : Z;
  PrivateIPOnly     : bool;
  PrivateIPAddress  : string;
  SecurityGroupId   : Z;
  SecurityGroupName : string
}.

(** Promoted fields of the embedded [*drivers.BaseDriver]. *)
Definition IPAddress (d : Driver) : string := drivers.IPAddress (BaseDriver d).
Definition MachineName (d : Driver) : string := drivers.MachineName (BaseDriver d).
Definition SSHUser (d : Driver) : string := drivers.SSHUser (BaseDriver d).
Definition SSHPort (d : Driver) : Z := drivers.SSHPort (BaseDriver d).

(** Field assignments [d.F = v]. *)
Definition set_BaseDriver (b : drivers.BaseDriver) (d : Driver) : Driver :=
  mkDriver b (PublicKey d) (PrivateKey d) (Region d) (ImageId d) (Password d)
    (UhostID d) (CPU d) (Memory d) (DiskSpace d) (PrivateIPOnly d)
    (PrivateIPAddress d) (SecurityGroupId d) (SecurityGroupName d).
Definition set_SSHUser (v : string) (d : Driver) : Driver :=
  let b := BaseDriver d in
  set_BaseDriver
    (drivers.mkBaseDriver (drivers.IPAddress b) (drivers.MachineName b) v
       (drivers.SSHPort b) (drivers.ArtifactPath b)) d.
Definition set_SSHPort (v : Z) (d : Driver) : Driver :=
  let b := BaseDriver d in
  set_BaseDriver
    (drivers.mkBaseDriver (drivers.IPAddress b) (drivers.MachineName b)
       (drivers.SSHUser b) v (drivers.ArtifactPath b)) d.
Definition set_IPAddress (v : string) (d : Driver) : Driver :=
  let b := BaseDriver d in
  set_BaseDriver
    (drivers.mkBaseDriver v (drivers.MachineName b) (drivers.SSHUser b)
       (drivers.SSHPort b) (drivers.ArtifactPath b)) d.
Definition set_PublicKey (v : string) (d : Driver) : Driver :=
  mkDriver (BaseDriver d) v (PrivateKey d) (Region d) (ImageId d) (Password d)
    (UhostID d) (CPU d) (Memory d) (DiskSpace d) (PrivateIPOnly d)
    (PrivateIPAddress d) (SecurityGroupId d) (SecurityGroupName d).
Definition set_PrivateKey (v : string) (d : Driver) : Driver :=
  mkDriver (BaseDriver d) (PublicKey d) v (Region d) (ImageId d) (Password d)
    (UhostID d) (CPU d) (Memory d) (DiskSpace d) (PrivateIPOnly d)
    (PrivateIPAddress d) (SecurityGroupId d) (SecurityGroupName d).
Definition set_Region (v : string) (d : Driver) : Driver :=
  mkDriver (BaseDriver d) (PublicKey d) (PrivateKey d) v (ImageId d) (Password d)
    (UhostID d) (CPU d) (Memory d) (DiskSpace d) (PrivateIPOnly d)
    (PrivateIPAddress d) (SecurityGroupId d) (SecurityGroupName d).
Definition set_ImageId (v : string) (d : Driver) : Driver :=
  mkDriver (BaseDriver d) (PublicKey d) (PrivateKey d) (Region d) v (Password d)
    (UhostID d) (CPU d) (Memory d) (DiskSpace d) (PrivateIPOnly d)
    (PrivateIPAddress d) (SecurityGroupId d) (SecurityGroupName d).
Definition set_Password (v : string) (d : Driver) : Driver :=
  mkDriver (BaseDriver d) (PublicKey d) (PrivateKey d) (Region d) (ImageId d) v
    (UhostID d) (CPU d) (Memory d) (DiskSpace d) (PrivateIPOnly d)
    (PrivateIPAddress d) (SecurityGroupId d) (SecurityGroupName d).
Definition set_UhostID (v : string) (d : Driver) : Driver :=
  mkDriver (BaseDriver d) (PublicKey d) (PrivateKey d) (Region d) (ImageId d)
    (Password d) v (CPU d) (Memory d) (DiskSpace d) (PrivateIPOnly d)
    (PrivateIPAddress d) (SecurityGroupId d) (SecurityGroupName d).
Definition set_PrivateIPOnly (v : bool) (d : Driver) : Driver :=
  mkDriver (BaseDriver d) (PublicKey d) (PrivateKey d) (Region d) (ImageId d)
    (Password d) (UhostID d) (CPU d) (Memory d) (DiskSpace d) v
    (PrivateIPAddress d) (SecurityGroupId d) (SecurityGroupName d).
Definition set_SecurityGroupName (v : string) (d : Driver) : Driver :=
  mkDriver (BaseDriver d) (PublicKey d) (PrivateKey d) (Region d) (ImageId d)
    (Password d) (UhostID d) (CPU d) (Memory d) (DiskSpace d) (PrivateIPOnly d)
    (PrivateIPAddress d) (SecurityGroupId d) v.

(** The constants of the file ([defaultTimeout] is a duration and is not
    modelled). *)
Definition defaultCPU : Z := 1.
Definition defaultMemory : Z := 1024.
Definition defaultDiskSpace : Z := 20000.
Definition defaultRegion : string := "cn-north-03".
Definition defaultRetries : Z := 10.
Definition defaultImageId : string := "uimage-5yt2b0".

(** Fields a composite literal leaves out take their zero value. *)
Definition NewDriver (hostName artifactPath : string) : Driver :=
  mkDriver (drivers.mkBaseDriver "" hostName "" 0 artifactPath)
    "" "" defaultRegion "" "" "" defaultCPU defaultMemory defaultDiskSpace
    false "" 0 "".

Definition GetCreateFlags (d : Driver) : list mcnflag.Flag :=
  [ mcnflag.mkFlag "ucloud-public-key" "UCloud Public Key"
      (mcnflag.StringValue "") "UCLOUD_PUBLIC_KEY";
    mcnflag.mkFlag "ucloud-private-key" "UCloud Private Key"
      (mcnflag.StringValue "") "UCLOUD_PRIVATE_KEY";
    mcnflag.mkFlag "ucloud-imageid" "UHost image id"
      (mcnflag.StringValue "") "";
    mcnflag.mkFlag "ucloud-user-password" "Password of ucloud user"
      (mcnflag.StringValue "") "";
    mcnflag.mkFlag "ucloud-region" "Region of ucloud idc"
      (mcnflag.StringValue "cn-north-03") "UCLOUD_REGION";
    mcnflag.mkFlag "ucloud-ssh-user" "SSH user"
      (mcnflag.StringValue "root") "";
    mcnflag.mkFlag "ucloud-ssh-port" "SSH port"
      (mcnflag.IntValue 22) "";
    mcnflag.mkFlag "ucloud-private-address-only" "Only use a private IP address"
      mcnflag.NoValue "";
    mcnflag.mkFlag "ucloud-security-group" "UCloud security group"
      (mcnflag.StringValue "docker-machine") "" ].

Definition DriverName (d : Driver) : string := "ucloud".

(** ** Helper functions of the package that live outside [ucloud.go]

    [ucloud.go] calls them but does not define them.  They are taken as an
    interface: the methods on [*Driver] may update the driver and the remote
    provider's state [W]; the free functions get the region and the instance
    id.  [getHostDescription] returns a pointer (possibly nil) to a value
    whose [state] field is the provider's status string. *)

Record HostDescription : Set := mkHostDescription {
  hd_state : string   (* the field [state] *)
}.

Class UCloudAPI (W : Type) : Type := {
  validateUCloudRegion : string -> string * error;
  createKeyPair      : Driver -> W -> error * Driver * W;
  createUHost        : Driver -> W -> error * Driver * W;
  createUNet         : Driver -> W -> error * Driver * W;
  uploadKeyPair      : Driver -> W -> error * Driver * W;
  getHostDescription : Driver -> W -> (option HostDescription * error) * Driver * W;
  startUHost         : string -> string -> W -> error * W;
  stopUHost          : string -> string -> W -> error * W;
  terminateUHost     : string -> string -> W -> error * W;
  rebootUHost        : string -> string -> W -> error * W;
  killUHost          : string -> string -> W -> error * W
}.

(** ** The log of calls to those helpers *)

Inductive Call : Set :=
| CreateKeyPair
| CreateUHost
| CreateUNet
| UploadKeyPair
| GetHostDescription
| StartUHost (region id : string)
| StopUHost (region id : string)
| TerminateUHost (region id : string)
| RebootUHost (region id : string)
| KillUHost (region id : string).

(** One entry per call: which helper, and the error it returned. *)
Record Event : Set := mkEvent { ev_call : Call; ev_err : error }.

(** ** The state monad of the methods *)

Record St (W : Type) : Type := mkSt {
  drv   : Driver;
  world : W;
  calls : list Event
}.
Arguments mkSt {W} _ _ _.
Arguments drv {W} _.
Arguments world {W} _.
Arguments calls {W} _.

Definition M (W A : Type) : Type := St W -> A * St W.

Definition ret {W A} (a : A) : M W A := fun s => (a, s).
Definition bind {W A B} (m : M W A) (k : A -> M W B) : M W B :=
  fun s => let (a, s') := m s in k a s'.

Declare Scope go_scope.
Delimit Scope go_scope with go.
Notation "x <- m ;; k" := (bind m (fun x => k))
  (at level 61, m at next level, right associativity) : go_scope.
Notation "' p <- m ;; k" := (bind m (fun x => let 'p := x in k))
  (at level 61, p pattern, m at next level, right associativity) : go_scope.
Local Open Scope go_scope.

Definition get_drv {W} : M W Driver := fun s => (drv s, s).
Definition modify_drv {W} (f : Driver -> Driver) : M W unit :=
  fun s => (tt, mkSt (f (drv s)) (world s) (calls s)).

(** Calling a helper method on the driver, and logging the call. *)
Definition call_method {W} (c : Call) (f : Driver -> W -> error * Driver * W)
  : M W error :=
  fun s =>
    let '(err, d', w') := f (drv s) (world s) in
    (err, mkSt d' w' (calls s ++ [mkEvent c err])).

(** Calling a free helper function, and logging the call. *)
Definition call_func {W} (c : Call) (f : W -> error * W) : M W error :=
  fun s =>
    let '(err, w') := f (world s) in
    (err, mkSt (drv s) w' (calls s ++ [mkEvent c err])).

Definition call_getHostDescription {W} `{UCloudAPI W}
  : M W (option HostDescription * error) :=
  fun s =>
    let '(r, d', w') := getHostDescription (drv s) (world s) in
    (r, mkSt d' w' (calls s ++ [mkEvent GetHostDescription (snd r)])).

Notation "m ;; k" := (bind m (fun _ => k))
  (at level 61, right associativity) : go_scope.

(** ** libmachine: [mcnutils.WaitFor] and [drivers.MachineInState]

    Both are imported from libmachine.  [WaitForSpecific f maxAttempts _]
    calls [f] up to [maxAttempts] times, returns nil at the first [true] and
    the error "Maximum number of retries (%d) exceeded" when none of the
    attempts gave [true]; [WaitFor f] is [WaitForSpecific f 60 (3s)]. *)

Module mcnutils.
Section Wait.
Context {W : Type}.

(** The message of the exhausted loop. *)
Definition exceeded (maxAttempts : nat) : string :=
  "Maximum number of retries (" ++ itoa maxAttempts ++ ") exceeded".

(** The loop [for i := 0; i < maxAttempts; i++], by the number of
    iterations left. *)
Fixpoint attempts (f : M W bool) (maxAttempts left : nat) : M W error :=
  match left with
  | O => ret (Errorf (exceeded maxAttempts))
  | S left' =>
      ok <- f ;;
      if (ok : bool) then ret nil else attempts f maxAttempts left'
  end.


Definition WaitForSpecific (f : M W bool) (maxAttempts : nat) : M W error :=
  attempts f maxAttempts maxAttempts.

Definition WaitFor (f : M W bool) : M W error := WaitForSpecific f 60.
End Wait.
End mcnutils.

(** ** The methods of [ucloud.go] *)

Section Methods.
Context {W : Type} `{API : UCloudAPI W}.

(** [strings.ToLower] of the Go standard library. *)
Variable ToLower : string -> string.

Definition GetIP : M W (string * error) :=
  d <- get_drv ;;
  if IPAddress d =? "" then ret ("", Errorf "IP address is not set")
  else ret (IPAddress d, nil).

Definition GetSSHHostname : M W (string * error) := GetIP.

Definition GetSSHUsername : M W string :=
  d <- get_drv ;;
  (if SSHUser d =? "" then modify_drv (set_SSHUser "root") else ret tt) ;;
  d <- get_drv ;;
  ret (SSHUser d).

Definition SetConfigFromFlags (flags : drivers.DriverOptions) : M W error :=
  let '(region, err) :=
    validateUCloudRegion (drivers.String flags "ucloud-region") in
  match err with
  | Some _ => ret err
  | None =>
    modify_drv (set_Region region) ;;
    modify_drv (set_PublicKey (drivers.String flags "ucloud-public-key")) ;;
    d <- get_drv ;;
    if PublicKey d =? "" then
      ret (Errorf "ucloud driver requires the --ucloud-public-key option")
    else
    modify_drv (set_PrivateKey (drivers.String flags "ucloud-private-key")) ;;
    d <- get_drv ;;
    if PrivateKey d =? "" then
      ret (Errorf "ucloud driver requires the --ucloud-private-key option")
    else
    let image := drivers.String flags "ucloud-imageid" in
    let image := if Nat.eqb (String.length image) 0 then defaultImageId
                 else image in
    modify_drv (set_ImageId image) ;;
    modify_drv (set_PrivateIPOnly
                  (drivers.Bool flags "ucloud-private-address-only")) ;;
    modify_drv (set_SecurityGroupName
                  (drivers.String flags "ucloud-security-group")) ;;
    modify_drv (set_SSHUser (ToLower (drivers.String flags "ucloud-ssh-user"))) ;;
    d <- get_drv ;;
    (if SSHUser d =? "" then modify_drv (set_SSHUser "root") else ret tt) ;;
    modify_drv (set_Password (drivers.String flags "ucloud-user-password")) ;;
    modify_drv (set_SSHPort 22) ;;
    ret nil
  end.

Definition PreCreateCheck : M W error := ret nil.

(** The [switch details.state] of [GetState]. *)
Definition GetState : M W (state.State * error) :=
  d <- get_drv ;;
  if (UhostID d =? "") || (Region d =? "") then
    ret (state.None, Errorf "region or uhost is empty")
  else
  '(details, err) <- call_getHostDescription ;;
  match err with
  | Some e => ret (state.None, Errorf ("get UHost details failed:" ++ e))
  | None =>
    let st :=
      match details with
      | Some details =>
          let s := hd_state details in
          if negb (s =? "") then
            if (s =? "Initializing") || (s =? "Starting") || (s =? "Rebooting")
            then state.Starting
            else if s =? "Running" then state.Running
            else if s =? "Stopped" then state.Stopped
            else if s =? "Stopping" then state.Stopping
            else if s =? "Install Fail" then state.Error
            else state.None
          else state.None
      | None => state.None
      end in
    ret (st, nil)
  end.

(** [drivers.MachineInState(d, desiredState)]: the closure asks the driver
    for its state, logs an error if there is one, and compares. *)
Definition MachineInState (desiredState : state.State) : M W bool :=
  '(currentState, _) <- GetState ;;
  ret (state.eqb currentState desiredState).

Definition Create : M W error :=
  d <- get_drv ;;
  if Password d =? "" then
    ret (Errorf "ucloud driver requires --ucloud-user-password options.")
  else
  err <- call_method CreateKeyPair createKeyPair ;;
  match err with
  | Some e => ret (Errorf ("unable to create key pair: " ++ e))
  | None =>
  err <- call_method CreateUHost createUHost ;;
  match err with
  | Some e => ret (Errorf ("create UHost failed:" ++ e))
  | None =>
  err <- mcnutils.WaitFor (MachineInState state.Running) ;;
  match err with
  | Some e => ret (Errorf ("wait for machine running failed: " ++ e))
  | None =>
  err <- call_method CreateUNet createUNet ;;
  match err with
  | Some e => ret (Errorf ("create networks failed:" ++ e))
  | None =>
  err <- call_method UploadKeyPair uploadKeyPair ;;
  match err with
  | Some e => ret (Errorf ("upload keypair failed:" ++ e))
  | None => ret nil
  end end end end end.

Definition GetURL : M W (string * error) :=
  '(ip, err) <- GetIP ;;
  match err with
  | Some _ => ret ("", err)
  | None => ret ("tcp://" ++ ip ++ ":2376", nil)
  end.

Definition Start : M W error :=
  d <- get_drv ;;
  err <- call_func (StartUHost (Region d) (UhostID d))
           (startUHost (Region d) (UhostID d)) ;;
  match err with
  | Some _ =>
      d <- get_drv ;;
      ret (Errorf ("Cannot start Machine:" ++ MachineName d
                     ++ ", with UHost: " ++ UhostID d ++ "."))
  | None => ret nil
  end.

Definition Stop : M W error :=
  d <- get_drv ;;
  if Nat.eqb (String.length (UhostID d)) 0 then
    ret (Errorf ("UHost is not exist for Machine:" ++ MachineName d))
  else
  err <- call_func (StopUHost (Region d) (UhostID d))
           (stopUHost (Region d) (UhostID d)) ;;
  match err with
  | Some _ =>
      d <- get_drv ;;
      ret (Errorf ("Cannot start Machine:" ++ MachineName d
                     ++ ", with UHost: " ++ UhostID d ++ "."))
  | None => ret nil
  end.

Definition Remove : M W error :=
  d <- get_drv ;;
  err <- call_func (TerminateUHost (Region d) (UhostID d))
           (terminateUHost (Region d) (UhostID d)) ;;
  match err with
  | Some e => ret (Errorf ("Unable to terminate the UHost instance:" ++ e))
  | None => ret nil
  end.

Definition Restart : M W error :=
  d <- get_drv ;;
  err <- call_func (RebootUHost (Region d) (UhostID d))
           (rebootUHost (Region d) (UhostID d)) ;;
  match err with
  | Some e => ret (Errorf ("Unable to restart the UHost instance:" ++ e))
  | None => ret nil
  end.

Definition Kill : M W error :=
  d <- get_drv ;;
  err <- call_func (KillUHost (Region d) (UhostID d))
           (killUHost (Region d) (UhostID d)) ;;
  match err with
  | Some e => ret (Errorf ("Unable to kill the UHost instance:" ++ e))
  | None => ret nil
  end.
End Methods.

(** ** What the specification says, in its own words *)

Module Spec.
(** The status table of the remote instance client: provider string,
    canonical status.  The canonical [Unknown] is [state.None]. *)
Definition Unknown : state.State := state.None.

Definition statusTable : list (string * state.State) :=
  [ ("Initializing", state.Starting);
    ("Starting",     state.Starting);
    ("Rebooting",    state.Starting);
    ("Running",      state.Running);
    ("Stopped",      state.Stopped);
    ("Stopping",     state.Stopping);
    ("Install Fail", state.Error) ].

(** The uniform error shape of the lifecycle controller:
    "cannot <verb> instance <id>: <cause>". *)
Definition lifecycleError (verb id cause : string) : error :=
  Errorf ("cannot " ++ verb ++ " instance " ++ id ++ ": " ++ cause).

(** An operation fails before any call to the provider: it returns an
    error, and neither the call log nor the provider has changed.  [err]
    picks the error out of the operation's results. *)
Definition failsBeforeAnyCall {W A : Type} (err : A -> error) (op : M W A)
    (s : St W) : Prop :=
  err (fst (op s)) <> nil
  /\ calls (snd (op s)) = calls s
  /\ world (snd (op s)) = world s.

(** The helpers the provisioning sequence is allowed to call. *)
Definition provisioningCall (c : Call) : bool :=
  match c with
  | CreateKeyPair | CreateUHost | GetHostDescription | CreateUNet
  | UploadKeyPair => true
  | _ => false
  end.

Definition ok (c : Call) : Event := mkEvent c nil.
Definition failed (c : Call) (cause : string) : Event := mkEvent c (Some cause).
Definition isPoll (e : Event) : Prop := ev_call e = GetHostDescription.

(** The runs of the provisioning sequence: what is logged, in order, and
    the error [Create] ends with.  [polls] are the status queries of the
    bounded poll; [timeout] is the cause the poll reports when it gives
    up. *)
Inductive CreateRun (timeout : string) : list Event -> error -> Prop :=
| KeyPairFails cause :
    CreateRun timeout
      [failed CreateKeyPair cause]
      (Errorf ("unable to create key pair: " ++ cause))
| InstanceFails cause :
    CreateRun timeout
      [ok CreateKeyPair; failed CreateUHost cause]
      (Errorf ("create UHost failed:" ++ cause))
| WaitFails polls :
    Forall isPoll polls -> length polls <= 60 ->
    CreateRun timeout
      (ok CreateKeyPair :: ok CreateUHost :: polls)
      (Errorf ("wait for machine running failed: " ++ timeout))
| NetworkFails polls cause :
    Forall isPoll polls -> length polls <= 60 ->
    CreateRun timeout
      (ok CreateKeyPair :: ok CreateUHost :: polls
         ++ [failed CreateUNet cause])
      (Errorf ("create networks failed:" ++ cause))
| UploadFails polls cause :
    Forall isPoll polls -> length polls <= 60 ->
    CreateRun timeout
      (ok CreateKeyPair :: ok CreateUHost :: polls
         ++ [ok CreateUNet; failed UploadKeyPair cause])
      (Errorf ("upload keypair failed:" ++ cause))
| AllSucceed polls :
    Forall isPoll polls -> length polls <= 60 ->
    CreateRun timeout
      (ok CreateKeyPair :: ok CreateUHost :: polls
         ++ [ok CreateUNet; ok UploadKeyPair])
      nil.

Section Sequence.
Context {W : Type} `{API : UCloudAPI W}.

(** The bounded poll for [Running]: [PollRunning n s found s'] says that,
    starting in [s], the status is queried with [GetState] one time after
    the other, at most [n] times, until a query answers [state.Running].
    With [found = true] the last query made answered [state.Running] and
    none before it did; with [found = false] all [n] queries were made and
    none answered [state.Running].  [s'] is the state after the last
    query. *)
Inductive PollRunning : nat -> St W -> bool -> St W -> Prop :=
| PollGivesUp s :
    PollRunning 0 s false s
| PollSeesRunning n s :
    fst (fst (GetState s)) = state.Running ->
    PollRunning (S n) s true (snd (GetState s))
| PollAgain n s found s' :
    fst (fst (GetState s)) <> state.Running ->
    PollRunning n (snd (GetState s)) found s' ->
    PollRunning (S n) s found s'.

(** The provisioning sequence, step by step: [Provisions s err s'] relates
    the state [s] before the sequence to the error it ends with and the
    state [s'] it ends in.  The steps are key pair, instance, poll of at
    most 60 status queries until [Running], network, upload; each step
    starts in the state the step before left; the sequence ends at the
    first step that fails, in the state that step left, with that step's
    message and cause. *)
Inductive Provisions (s : St W) : error -> St W -> Prop :=
| ProvisionKeyPairFails cause s1 :
    call_method CreateKeyPair createKeyPair s = (Some cause, s1) ->
    Provisions s (Errorf ("unable to create key pair: " ++ cause)) s1
| ProvisionInstanceFails cause s1 s2 :
    call_method CreateKeyPair createKeyPair s = (nil, s1) ->
    call_method CreateUHost createUHost s1 = (Some cause, s2) ->
    Provisions s (Errorf ("create UHost failed:" ++ cause)) s2
| ProvisionWaitFails s1 s2 s3 :
    call_method CreateKeyPair createKeyPair s = (nil, s1) ->
    call_method CreateUHost createUHost s1 = (nil, s2) ->
    PollRunning 60 s2 false s3 ->
    Provisions s
      (Errorf "wait for machine running failed: Maximum number of retries (60) exceeded")
      s3
| ProvisionNetworkFails cause s1 s2 s3 s4 :
    call_method CreateKeyPair createKeyPair s = (nil, s1) ->
    call_method CreateUHost createUHost s1 = (nil, s2) ->
    PollRunning 60 s2 true s3 ->
    call_method CreateUNet createUNet s3 = (Some cause, s4) ->
    Provisions s (Errorf ("create networks failed:" ++ cause)) s4
| ProvisionUploadFails cause s1 s2 s3 s4 s5 :
    call_method CreateKeyPair createKeyPair s = (nil, s1) ->
    call_method CreateUHost createUHost s1 = (nil, s2) ->
    PollRunning 60 s2 true s3 ->
    call_method CreateUNet createUNet s3 = (nil, s4) ->
    call_method UploadKeyPair uploadKeyPair s4 = (Some cause, s5) ->
    Provisions s (Errorf ("upload keypair failed:" ++ cause)) s5
| ProvisionSucceeds s1 s2 s3 s4 s5 :
    call_method CreateKeyPair createKeyPair s = (nil, s1) ->
    call_method CreateUHost createUHost s1 = (nil, s2) ->
    PollRunning 60 s2 true s3 ->
    call_method CreateUNet createUNet s3 = (nil, s4) ->
    call_method UploadKeyPair uploadKeyPair s4 = (nil, s5) ->
    Provisions s nil s5.
End Sequence.
End Spec.

(** ** A scripted remote provider, for running the driver on examples *)

Module Fake.
(** Canned answers: one error per helper ([nil] for success), the id the
    provider assigns, the address the network step stores, and the answers
    of the successive status queries ([describeLast] once the script is
    used up). *)
Record World : Set := mkWorld {
  keyPairErr   : error;
  uhostErr     : error;
  uhostId      : string;
  describe     : list (option HostDescription * error);
  describeLast : option HostDescription * error;
  unetErr      : error;
  unetIP       : string;
  uploadErr    : error;
  lifecycleErr : error
}.

Definition answer (e : error) (d : Driver) (w : World)
  : error * Driver * World := (e, d, w).

Definition fakeCreateUHost (d : Driver) (w : World)
  : error * Driver * World :=
  match uhostErr w with
  | Some e => (Some e, d, w)
  | None => (nil, set_UhostID (uhostId w) d, w)
  end.

Definition fakeCreateUNet (d : Driver) (w : World)
  : error * Driver * World :=
  match unetErr w with
  | Some e => (Some e, d, w)
  | None => (nil, set_IPAddress (unetIP w) d, w)
  end.

Definition fakeDescribe (d : Driver) (w : World)
  : (option HostDescription * error) * Driver * World :=
  match describe w with
  | [] => (describeLast w, d, w)
  | r :: rest =>
      (r, d, mkWorld (keyPairErr w) (uhostErr w) (uhostId w) rest
               (describeLast w) (unetErr w) (unetIP w) (uploadErr w)
               (lifecycleErr w))
  end.

Definition fakeRegion (r : string) : string * error :=
  if (r =? "cn-north-01") || (r =? "cn-north-03") || (r =? "cn-east-01")
  then (r, nil) else ("", Some ("invalid region: " ++ r)).

#[global] Instance api : UCloudAPI World := {|
  validateUCloudRegion := fakeRegion;
  createKeyPair := fun d w => answer (keyPairErr w) d w;
  createUHost := fakeCreateUHost;
  createUNet := fakeCreateUNet;
  uploadKeyPair := fun d w => answer (uploadErr w) d w;
  getHostDescription := fakeDescribe;
  startUHost := fun _ _ w => (lifecycleErr w, w);
  stopUHost := fun _ _ w => (lifecycleErr w, w);
  terminateUHost := fun _ _ w => (lifecycleErr w, w);
  rebootUHost := fun _ _ w => (lifecycleErr w, w);
  killUHost := fun _ _ w => (lifecycleErr w, w)
|}.

(** Lower-casing of the ASCII letters, for the examples. *)
Definition lowerAscii (c : ascii) : ascii :=
  let n := nat_of_ascii c in
  if (Nat.leb 65 n && Nat.leb n 90)%bool then ascii_of_nat (n + 32) else c.
Fixpoint toLower (s : string) : string :=
  match s with
  | EmptyString => EmptyString
  | String c s' => String (lowerAscii c) (toLower s')
  end.

Definition status (s : string) : option HostDescription * error :=
  (Some (mkHostDescription s), nil).

(** A provider where everything succeeds and the instance is seen
    [Starting] twice before it is [Running]. *)
Definition happy : World :=
  mkWorld nil nil "uhost-1" [status "Starting"; status "Starting"]
    (status "Running") nil "10.10.0.7" nil nil.

(** A provider whose instance never leaves the given status. *)
Definition stuck (s : string) : World :=
  mkWorld nil nil "uhost-1" [] (status s) nil "10.10.0.7" nil nil.

(** A provider whose status query always fails. *)
Definition unreachable (cause : string) : World :=
  mkWorld nil nil "uhost-1" [] (Datatypes.None, Some cause) nil "10.10.0.7"
    nil nil.

(** A provider whose lifecycle calls fail with the given cause. *)
Definition refusing (cause : string) : World :=
  mkWorld nil nil "uhost-1" [] (status "Running") nil "10.10.0.7" nil
    (Some cause).

(** A configured driver: machine "m1", the given password and instance id. *)
Definition driver (password id : string) : Driver :=
  set_UhostID id
    (set_Password password
       (set_PrivateKey "private" (set_PublicKey "public" (NewDriver "m1" "/tmp")))).

Definition start (d : Driver) (w : World) : St World := mkSt d w [].

Definition flags (publicKey privateKey password : string) (port : Z)
  : drivers.DriverOptions :=
  drivers.mkDriverOptions
    (fun name =>
       if name =? "ucloud-region" then "cn-north-03"
       else if name =? "ucloud-public-key" then publicKey
       else if name =? "ucloud-private-key" then privateKey
       else if name =? "ucloud-user-password" then password
       else if name =? "ucloud-ssh-user" then "Root"
       else if name =? "ucloud-security-group" then "docker-machine"
       else "")
    (fun name => if name =? "ucloud-ssh-port" then port else 0%Z)
    (fun _ => false).
End Fake.

(** * Properties *)

Lemma state_eqb_spec (a b : state.State) : reflect (a = b) (state.eqb a b).
Proof. destruct a, b; simpl; constructor; congruence. Qed.

Lemma eqb_empty_false (s : string) : s <> "" -> (s =? "") = false.
Proof. intro H. now apply String.eqb_neq. Qed.

Lemma length_zero_empty (s : string) :
  Nat.eqb (String.length s) 0 = true <-> s = "".
Proof.
  destruct s as [|c s]; simpl; split; intro H; try reflexivity; discriminate.
Qed.

(** Unfolding the monad down to pairs. *)
Ltac run :=
  unfold bind, ret, get_drv, modify_drv, call_method, call_func,
    call_getHostDescription in *;
  simpl in *.

(** ** The status query *)

Section StatusMapping.
Context {W : Type} `{API : UCloudAPI W}.

(** C1.  When the instance is identified and the provider's description
    carries the status string [hd_state details], [GetState] returns, with
    a nil error, exactly the canonical status the table gives for that
    string, and [state.None] (the canonical Unknown) for every string the
    table does not list. *)
Theorem GetState_maps_status (s : St W) details d' w' :
  UhostID (drv s) <> "" -> Region (drv s) <> "" ->
  getHostDescription (drv s) (world s) = ((Some details, nil), d', w') ->
  exists st,
    GetState s
    = ((st, nil), mkSt d' w' (calls s ++ [mkEvent GetHostDescription nil]))
    /\ (forall v, In (hd_state details, v) Spec.statusTable -> st = v)
    /\ ((forall v, ~ In (hd_state details, v) Spec.statusTable) ->
        st = state.None).
Proof.
  intros Hid Hreg Hget.
  unfold GetState. run.
  rewrite (eqb_empty_false _ Hid), (eqb_empty_false _ Hreg). simpl.
  rewrite Hget. simpl.
  eexists. split; [reflexivity|]. split.
  - intros v Hin. simpl in Hin.
    repeat (destruct Hin as [Hin|Hin];
            [injection Hin as Hk Hv; rewrite <- Hk; exact Hv|]).
    destruct Hin.
  - intros Hout.
    assert (Hne : forall k v, In (k, v) Spec.statusTable ->
                              (hd_state details =? k) = false).
    { intros k v Hin. apply String.eqb_neq. intro Heq.
      apply (Hout v). rewrite Heq. exact Hin. }
    destruct (hd_state details =? "") eqn:E0; [reflexivity|]. simpl.
    rewrite (Hne "Initializing" state.Starting) by (simpl; tauto).
    rewrite (Hne "Starting" state.Starting) by (simpl; tauto).
    rewrite (Hne "Rebooting" state.Starting) by (simpl; tauto).
    rewrite (Hne "Running" state.Running) by (simpl; tauto).
    rewrite (Hne "Stopped" state.Stopped) by (simpl; tauto).
    rewrite (Hne "Stopping" state.Stopping) by (simpl; tauto).
    rewrite (Hne "Install Fail" state.Error) by (simpl; tauto).
    reflexivity.
Qed.
End StatusMapping.

(** C1, on the scripted provider: a [Running] instance and one in a state
    the table does not know. *)
Lemma GetState_maps_status_witness :
  fst (GetState (Fake.start (Fake.driver "pw" "uhost-1") (Fake.stuck "Running")))
  = (state.Running, nil).
Proof.
  destruct (GetState_maps_status
              (Fake.start (Fake.driver "pw" "uhost-1") (Fake.stuck "Running"))
              (mkHostDescription "Running")
              (Fake.driver "pw" "uhost-1") (Fake.stuck "Running"))
    as [st [Hrun [Hin _]]].
  - discriminate.
  - discriminate.
  - reflexivity.
  - rewrite Hrun. simpl. f_equal. apply Hin. simpl. tauto.
Defined.

(** ** Address and URL *)

Section Address.
Context {W : Type}.

(** C9.  [GetIP] fails exactly when the stored address is empty and
    otherwise returns it unchanged (so an address that was set is read
    back); [GetURL] fails exactly when [GetIP] does and otherwise returns
    "tcp://<ip>:2376".  Neither changes the driver nor calls the
    provider. *)
Theorem GetIP_GetURL_spec (s : St W) :
  (snd (fst (GetIP s)) <> nil <-> IPAddress (drv s) = "")
  /\ (snd (fst (GetURL s)) <> nil <-> snd (fst (GetIP s)) <> nil)
  /\ (IPAddress (drv s) <> "" ->
      GetIP s = ((IPAddress (drv s), nil), s)
      /\ GetURL s = (("tcp://" ++ IPAddress (drv s) ++ ":2376", nil), s))
  /\ (forall ip, ip <> "" ->
      fst (GetIP (mkSt (set_IPAddress ip (drv s)) (world s) (calls s)))
      = (ip, nil))
  /\ snd (GetIP s) = s /\ snd (GetURL s) = s.
Proof.
  unfold GetURL, GetIP. run.
  destruct (IPAddress (drv s) =? "") eqn:E; simpl.
  - apply String.eqb_eq in E.
    repeat split; try discriminate; try (intros; congruence);
      try (intros ip Hip; unfold IPAddress; simpl;
           now rewrite (eqb_empty_false _ Hip)).
  - apply String.eqb_neq in E.
    repeat split; try (intros; congruence); try (intro C; now elim C);
      try (intros ip Hip; unfold IPAddress; simpl;
           now rewrite (eqb_empty_false _ Hip)).
Qed.
End Address.

(** C9, on a driver whose address has been set. *)
Lemma GetIP_GetURL_spec_witness :
  GetURL (Fake.start (set_IPAddress "10.1.2.3" (Fake.driver "pw" "uhost-1"))
            Fake.happy)
  = (("tcp://10.1.2.3:2376", nil),
     Fake.start (set_IPAddress "10.1.2.3" (Fake.driver "pw" "uhost-1"))
            Fake.happy).
Proof.
  apply (GetIP_GetURL_spec
           (Fake.start (set_IPAddress "10.1.2.3" (Fake.driver "pw" "uhost-1"))
              Fake.happy)).
  simpl. discriminate.
Defined.

(** ** Local checks that come before any call *)

Section LocalChecks.
Context {W : Type} `{API : UCloudAPI W}.

Lemma Create_without_password (s : St W) :
  Password (drv s) = "" ->
  Create s
  = (Errorf "ucloud driver requires --ucloud-user-password options.", s).
Proof. intro H. unfold Create. run. now rewrite H. Qed.

Lemma Stop_without_id (s : St W) :
  UhostID (drv s) = "" ->
  Stop s = (Errorf ("UHost is not exist for Machine:" ++ MachineName (drv s)), s).
Proof. intro H. unfold Stop. run. now rewrite H. Qed.

Lemma GetState_without_id (s : St W) :
  UhostID (drv s) = "" \/ Region (drv s) = "" ->
  GetState s = ((state.None, Errorf "region or uhost is empty"), s).
Proof.
  intro H. unfold GetState. run.
  destruct H as [H|H]; rewrite H; simpl; [reflexivity|].
  now rewrite orb_true_r.
Qed.

(** C3.  With an empty password [Create] returns its configuration error
    and stops there: the call log, the provider and the driver are as
    before, so no key pair was created, no instance was created and the
    status was never queried. *)
Theorem Create_empty_password (s : St W) :
  Password (drv s) = "" ->
  fst (Create s)
  = Errorf "ucloud driver requires --ucloud-user-password options."
  /\ calls (snd (Create s)) = calls s
  /\ world (snd (Create s)) = world s
  /\ drv (snd (Create s)) = drv s.
Proof.
  intro H. rewrite (Create_without_password s H). simpl. repeat split.
Qed.

(** C6.  [Stop] on a driver whose instance id is empty returns the
    missing-instance error and calls nothing: log, provider and driver are
    unchanged. *)
Theorem Stop_missing_instance (s : St W) :
  UhostID (drv s) = "" ->
  fst (Stop s)
  = Errorf ("UHost is not exist for Machine:" ++ MachineName (drv s))
  /\ calls (snd (Stop s)) = calls s
  /\ world (snd (Stop s)) = world s.
Proof.
  intro H. rewrite (Stop_without_id s H). simpl. repeat split.
Qed.

(** C7, amended.  Of the lifecycle operations, [Stop] and [GetState] on a
    driver with no recorded instance id fail before any call to the
    provider. *)
Theorem Stop_GetState_fail_locally (s : St W) :
  UhostID (drv s) = "" ->
  Spec.failsBeforeAnyCall (fun e => e) Stop s
  /\ Spec.failsBeforeAnyCall snd GetState s.
Proof.
  intro H. unfold Spec.failsBeforeAnyCall.
  rewrite (Stop_without_id s H).
  rewrite (GetState_without_id s (or_introl H)). simpl.
  repeat split; discriminate.
Qed.
End LocalChecks.

Lemma Create_empty_password_witness :
  fst (Create (Fake.start (Fake.driver "" "") Fake.happy))
  = Errorf "ucloud driver requires --ucloud-user-password options."
  /\ calls (snd (Create (Fake.start (Fake.driver "" "") Fake.happy))) = [].
Proof.
  destruct (Create_empty_password
              (Fake.start (Fake.driver "" "") Fake.happy) eq_refl)
    as [He [Hc _]].
  split; [exact He | exact Hc].
Defined.

Lemma Stop_missing_instance_witness :
  fst (Stop (Fake.start (Fake.driver "pw" "") Fake.happy))
  = Errorf "UHost is not exist for Machine:m1"
  /\ calls (snd (Stop (Fake.start (Fake.driver "pw" "") Fake.happy))) = [].
Proof.
  destruct (Stop_missing_instance
              (Fake.start (Fake.driver "pw" "") Fake.happy) eq_refl)
    as [He [Hc _]].
  split; [exact He | exact Hc].
Defined.

Lemma Stop_GetState_fail_locally_witness :
  Spec.failsBeforeAnyCall (fun e => e) Stop
    (Fake.start (Fake.driver "pw" "") Fake.happy)
  /\ Spec.failsBeforeAnyCall snd GetState
       (Fake.start (Fake.driver "pw" "") Fake.happy).
Proof.
  exact (Stop_GetState_fail_locally
           (Fake.start (Fake.driver "pw" "") Fake.happy) eq_refl).
Defined.

(** C7 as stated fails: on a driver with no recorded instance id, [Start],
    [Restart], [Kill] and [Remove] do not fail before any call; each calls
    the provider with the empty id, and succeeds when the provider does. *)
Lemma lifecycle_without_id_calls_provider :
  let s := Fake.start (Fake.driver "pw" "") Fake.happy in
  UhostID (drv s) = ""
  /\ ~ Spec.failsBeforeAnyCall (fun e => e) Start s
  /\ ~ Spec.failsBeforeAnyCall (fun e => e) Restart s
  /\ ~ Spec.failsBeforeAnyCall (fun e => e) Kill s
  /\ ~ Spec.failsBeforeAnyCall (fun e => e) Remove s
  /\ Start s
     = (nil, mkSt (drv s) (world s) [mkEvent (StartUHost "cn-north-03" "") nil]).
Proof.
  unfold Spec.failsBeforeAnyCall.
  repeat split; intros [_ [Hcalls _]]; discriminate Hcalls.
Qed.

(** ** Configuration from the flags *)

Section Configuration.
Context {W : Type} `{API : UCloudAPI W}.
Variable ToLower : string -> string.

(** [SetConfigFromFlags] never calls the provider. *)
Lemma SetConfigFromFlags_local flags (s : St W) :
  calls (snd (SetConfigFromFlags ToLower flags s)) = calls s
  /\ world (snd (SetConfigFromFlags ToLower flags s)) = world s.
Proof.
  unfold SetConfigFromFlags.
  destruct (validateUCloudRegion _) as [region [e|]]; run; [now split|].
  destruct (drivers.String flags "ucloud-public-key" =? ""); [now split|].
  simpl.
  destruct (drivers.String flags "ucloud-private-key" =? ""); [now split|].
  simpl.
  unfold SSHUser; simpl.
  destruct (ToLower _ =? ""); now split.
Qed.

(** What a successful [SetConfigFromFlags] leaves in the driver. *)
Lemma SetConfigFromFlags_success flags (s : St W) :
  fst (SetConfigFromFlags ToLower flags s) = nil ->
  let d := drv (snd (SetConfigFromFlags ToLower flags s)) in
  PublicKey d = drivers.String flags "ucloud-public-key"
  /\ PublicKey d <> ""
  /\ PrivateKey d = drivers.String flags "ucloud-private-key"
  /\ PrivateKey d <> ""
  /\ Password d = drivers.String flags "ucloud-user-password"
  /\ SSHPort d = 22%Z.
Proof.
  unfold SetConfigFromFlags.
  destruct (validateUCloudRegion _) as [region [e|]]; run; [discriminate|].
  destruct (drivers.String flags "ucloud-public-key" =? "") eqn:Epub;
    [discriminate|]. simpl.
  destruct (drivers.String flags "ucloud-private-key" =? "") eqn:Epriv;
    [discriminate|]. simpl.
  apply String.eqb_neq in Epub, Epriv.
  unfold SSHUser, SSHPort; simpl.
  destruct (ToLower _ =? ""); simpl; intros _; repeat split; assumption.
Qed.

(** With an empty public or private key flag it returns an error. *)
Lemma SetConfigFromFlags_needs_keys flags (s : St W) :
  drivers.String flags "ucloud-public-key" = ""
  \/ drivers.String flags "ucloud-private-key" = "" ->
  fst (SetConfigFromFlags ToLower flags s) <> nil.
Proof.
  intros Hkeys Hnil.
  destruct (SetConfigFromFlags_success flags s Hnil)
    as [Hpub [Hpub' [Hpriv [Hpriv' _]]]].
  destruct Hkeys as [H|H]; congruence.
Qed.

(** C4, amended.  The validation is split between two methods.  [Create]
    fails before any call to the provider when the password is empty.
    Empty public or private credentials are refused by
    [SetConfigFromFlags], which returns an error and calls nothing, so a
    driver it has configured has both; [Create] itself does not look at
    them. *)
Theorem validation_before_any_call flags (s : St W) :
  (Password (drv s) = "" ->
   Spec.failsBeforeAnyCall (fun e => e) Create s)
  /\ (drivers.String flags "ucloud-public-key" = ""
      \/ drivers.String flags "ucloud-private-key" = "" ->
      Spec.failsBeforeAnyCall (fun e => e)
        (SetConfigFromFlags ToLower flags) s)
  /\ (fst (SetConfigFromFlags ToLower flags s) = nil ->
      PublicKey (drv (snd (SetConfigFromFlags ToLower flags s))) <> ""
      /\ PrivateKey (drv (snd (SetConfigFromFlags ToLower flags s))) <> "").
Proof.
  unfold Spec.failsBeforeAnyCall. split; [|split].
  - intro H. rewrite (Create_without_password s H). simpl.
    repeat split. discriminate.
  - intro H. split.
    + now apply SetConfigFromFlags_needs_keys.
    + apply SetConfigFromFlags_local.
  - intro H. destruct (SetConfigFromFlags_success flags s H)
      as [_ [Hpub [_ [Hpriv _]]]]. now split.
Qed.

(** C10.  The flag "ucloud-ssh-port" is declared, with default 22;
    [SetConfigFromFlags] gives the same result whatever the integer flags
    hold, and after a successful call the driver's [SSHPort] is 22. *)
Theorem SetConfigFromFlags_ignores_ssh_port flags (s : St W) :
  In (mcnflag.mkFlag "ucloud-ssh-port" "SSH port" (mcnflag.IntValue 22) "")
     (GetCreateFlags (drv s))
  /\ (forall ints : string -> Z,
      SetConfigFromFlags ToLower
        (drivers.mkDriverOptions (drivers.String flags) ints
           (drivers.Bool flags)) s
      = SetConfigFromFlags ToLower flags s)
  /\ (fst (SetConfigFromFlags ToLower flags s) = nil ->
      SSHPort (drv (snd (SetConfigFromFlags ToLower flags s))) = 22%Z).
Proof.
  split; [|split].
  - simpl. tauto.
  - intro ints. reflexivity.
  - intro H. now destruct (SetConfigFromFlags_success flags s H)
      as [_ [_ [_ [_ [_ Hport]]]]].
Qed.
End Configuration.

(** C4, on the scripted provider: the flags without a private key are
    refused, an empty password stops [Create]. *)
Lemma validation_before_any_call_witness :
  Spec.failsBeforeAnyCall (fun e => e) Create
    (Fake.start (Fake.driver "" "") Fake.happy)
  /\ Spec.failsBeforeAnyCall (fun e => e)
       (SetConfigFromFlags Fake.toLower (Fake.flags "public" "" "pw" 22))
       (Fake.start (NewDriver "m1" "/tmp") Fake.happy).
Proof.
  split.
  - apply (validation_before_any_call Fake.toLower
             (Fake.flags "public" "" "pw" 22)
             (Fake.start (Fake.driver "" "") Fake.happy)).
    reflexivity.
  - apply (validation_before_any_call Fake.toLower
             (Fake.flags "public" "" "pw" 22)
             (Fake.start (NewDriver "m1" "/tmp") Fake.happy)).
    right. reflexivity.
Defined.

(** C4 as stated fails: with a password but neither credential, [Create]
    does not stop before the first call; on a provider where every step
    succeeds it runs the whole sequence and returns nil. *)
Lemma Create_does_not_check_keys :
  let s := Fake.start
             (set_PrivateKey "" (set_PublicKey "" (Fake.driver "pw" "")))
             Fake.happy in
  PublicKey (drv s) = "" /\ PrivateKey (drv s) = ""
  /\ ~ Spec.failsBeforeAnyCall (fun e => e) Create s
  /\ fst (Create s) = nil
  /\ map ev_call (calls (snd (Create s)))
     = [CreateKeyPair; CreateUHost; GetHostDescription; GetHostDescription;
        GetHostDescription; CreateUNet; UploadKeyPair].
Proof.
  cbv zeta. split; [reflexivity|]. split; [reflexivity|]. split.
  - intros [Herr _]. apply Herr. vm_compute. reflexivity.
  - split; vm_compute; reflexivity.
Qed.

(** C10, on flags that ask for port 2222. *)
Lemma SetConfigFromFlags_ignores_ssh_port_witness :
  fst (SetConfigFromFlags Fake.toLower (Fake.flags "public" "private" "pw" 2222)
         (Fake.start (NewDriver "m1" "/tmp") Fake.happy)) = nil
  /\ SSHPort (drv (snd (SetConfigFromFlags Fake.toLower
                          (Fake.flags "public" "private" "pw" 2222)
                          (Fake.start (NewDriver "m1" "/tmp") Fake.happy))))
     = 22%Z.
Proof.
  split; [reflexivity|].
  apply (SetConfigFromFlags_ignores_ssh_port Fake.toLower
           (Fake.flags "public" "private" "pw" 2222)
           (Fake.start (NewDriver "m1" "/tmp") Fake.happy)).
  reflexivity.
Defined.

(** ** Errors of the lifecycle operations *)

(** C8, amended.  Each of [Start], [Remove], [Restart], [Kill] is one call
    to the provider, and so is [Stop] once an instance id is recorded.
    When that call fails with [cause]: [Remove], [Restart] and [Kill]
    return "Unable to terminate / restart / kill the UHost instance:"
    followed by the cause, without the id; [Start] returns "Cannot start
    Machine:<name>, with UHost: <id>.", without the cause; [Stop] returns
    an error that ends with the machine name and the id in that same form,
    without the cause: what precedes them is one fixed text, the same for
    every provider, driver and cause. *)
Theorem lifecycle_errors :
  exists stopText : string,
  forall (W : Type) (API : UCloudAPI W) (s : St W) (cause : string) (w' : W),
  let d := drv s in
  let after c := mkSt d w' (calls s ++ [mkEvent c (Some cause)]) in
  (startUHost (Region d) (UhostID d) (world s) = (Some cause, w') ->
   Start s
   = (Errorf ("Cannot start Machine:" ++ MachineName d ++ ", with UHost: "
                ++ UhostID d ++ "."),
      after (StartUHost (Region d) (UhostID d))))
  /\ (terminateUHost (Region d) (UhostID d) (world s) = (Some cause, w') ->
      Remove s
      = (Errorf ("Unable to terminate the UHost instance:" ++ cause),
         after (TerminateUHost (Region d) (UhostID d))))
  /\ (rebootUHost (Region d) (UhostID d) (world s) = (Some cause, w') ->
      Restart s
      = (Errorf ("Unable to restart the UHost instance:" ++ cause),
         after (RebootUHost (Region d) (UhostID d))))
  /\ (killUHost (Region d) (UhostID d) (world s) = (Some cause, w') ->
      Kill s
      = (Errorf ("Unable to kill the UHost instance:" ++ cause),
         after (KillUHost (Region d) (UhostID d))))
  /\ (UhostID d <> "" ->
      stopUHost (Region d) (UhostID d) (world s) = (Some cause, w') ->
      Stop s
      = (Errorf (stopText ++ " Machine:" ++ MachineName d ++ ", with UHost: "
                   ++ UhostID d ++ "."),
         after (StopUHost (Region d) (UhostID d)))).
Proof.
  exists "Cannot start". intros W API s cause w'. cbv zeta. repeat split.
  - intro H. unfold Start. run. now rewrite H.
  - intro H. unfold Remove. run. now rewrite H.
  - intro H. unfold Restart. run. now rewrite H.
  - intro H. unfold Kill. run. now rewrite H.
  - intros Hid H. unfold Stop. run.
    destruct (Nat.eqb (String.length (UhostID (drv s))) 0) eqn:E.
    + apply length_zero_empty in E. contradiction.
    + now rewrite H.
Qed.

(** C8, on a provider that refuses every lifecycle call with "quota": the
    errors of [Remove] and [Start], and the error of [Stop], which is the
    same for the cause "quota" and the cause "timeout". *)
Lemma lifecycle_errors_witness :
  fst (Remove (Fake.start (Fake.driver "pw" "uhost-1") (Fake.refusing "quota")))
  = Errorf "Unable to terminate the UHost instance:quota"
  /\ fst (Start (Fake.start (Fake.driver "pw" "uhost-1") (Fake.refusing "quota")))
     = Errorf "Cannot start Machine:m1, with UHost: uhost-1."
  /\ fst (Stop (Fake.start (Fake.driver "pw" "uhost-1") (Fake.refusing "quota")))
     = fst (Stop (Fake.start (Fake.driver "pw" "uhost-1")
                    (Fake.refusing "timeout"))).
Proof.
  destruct lifecycle_errors as [stopText H].
  pose proof (H Fake.World Fake.api
                (Fake.start (Fake.driver "pw" "uhost-1") (Fake.refusing "quota"))
                "quota" (Fake.refusing "quota")) as Hq.
  pose proof (H Fake.World Fake.api
                (Fake.start (Fake.driver "pw" "uhost-1") (Fake.refusing "timeout"))
                "timeout" (Fake.refusing "timeout")) as Ht.
  cbv zeta in Hq, Ht.
  destruct Hq as [Hstart [Hremove [_ [_ Hstop]]]].
  destruct Ht as [_ [_ [_ [_ Hstop']]]].
  split; [|split].
  - rewrite (Hremove eq_refl). reflexivity.
  - rewrite (Hstart eq_refl). reflexivity.
  - rewrite Hstop by (discriminate || reflexivity).
    rewrite Hstop' by (discriminate || reflexivity).
    reflexivity.
Defined.

(** C8 as stated fails: the error of a refused [Start] is not
    "cannot start instance <id>: <cause>", it is the same for two different
    causes, and the error of a refused [Stop] is that of [Start]. *)
Lemma lifecycle_errors_not_uniform :
  let s cause := Fake.start (Fake.driver "pw" "uhost-1") (Fake.refusing cause) in
  fst (Start (s "quota")) <> Spec.lifecycleError "start" "uhost-1" "quota"
  /\ fst (Start (s "quota")) = fst (Start (s "timeout"))
  /\ fst (Stop (s "quota")) <> Spec.lifecycleError "stop" "uhost-1" "quota"
  /\ fst (Stop (s "quota")) = fst (Start (s "quota"))
  /\ fst (Remove (s "quota")) <> Spec.lifecycleError "terminate" "uhost-1" "quota"
  /\ fst (Restart (s "quota")) <> Spec.lifecycleError "reboot" "uhost-1" "quota".
Proof. cbv zeta. repeat split; vm_compute; congruence. Qed.

(** ** The provisioning sequence *)

Section Provisioning.
Context {W : Type} `{API : UCloudAPI W}.

Lemma call_method_log c f (s : St W) :
  calls (snd (call_method c f s))
  = (calls s ++ [mkEvent c (fst (call_method c f s))])%list.
Proof.
  unfold call_method. destruct (f (drv s) (world s)) as [[e d'] w'].
  reflexivity.
Qed.

(** One status query logs at most one call, a [GetHostDescription]. *)
Lemma GetState_log (s : St W) :
  exists polls,
    calls (snd (GetState s)) = (calls s ++ polls)%list
    /\ Forall Spec.isPoll polls /\ List.length polls <= 1.
Proof.
  unfold GetState. run.
  destruct ((UhostID (drv s) =? "") || (Region (drv s) =? "")).
  - exists []. simpl. rewrite app_nil_r. repeat split; auto.
  - destruct (getHostDescription (drv s) (world s)) as [[[details err] d'] w'].
    simpl. exists [mkEvent GetHostDescription err].
    destruct err; simpl; repeat split; auto;
      constructor; auto; reflexivity.
Qed.

Lemma MachineInState_log desired (s : St W) :
  exists polls,
    calls (snd (MachineInState desired s)) = (calls s ++ polls)%list
    /\ Forall Spec.isPoll polls /\ List.length polls <= 1.
Proof.
  unfold MachineInState, bind.
  destruct (GetState_log s) as [polls Hp].
  destruct (GetState s) as [[st err] s']. simpl in *. now exists polls.
Qed.

(** The bounded poll: at most one call per attempt, and either nil or the
    one error of the exhausted loop. *)
Lemma attempts_log desired total left (s : St W) :
  exists polls,
    calls (snd (mcnutils.attempts (MachineInState desired) total left s))
    = (calls s ++ polls)%list
    /\ Forall Spec.isPoll polls /\ List.length polls <= left
    /\ (fst (mcnutils.attempts (MachineInState desired) total left s) = nil
        \/ fst (mcnutils.attempts (MachineInState desired) total left s)
           = Errorf (mcnutils.exceeded total)).
Proof.
  revert s. induction left as [|left IH]; intro s; simpl.
  - exists []. rewrite app_nil_r. unfold ret. simpl. repeat split; auto.
  - unfold bind.
    destruct (MachineInState_log desired s) as [p1 [Hc1 [Hf1 Hl1]]].
    destruct (MachineInState desired s) as [[|] s1]; simpl in *.
    + exists p1. unfold ret; simpl. repeat split; auto. lia.
    + destruct (IH s1) as [p2 [Hc2 [Hf2 [Hl2 Hr]]]].
      exists (p1 ++ p2)%list. rewrite Hc2, Hc1, app_assoc.
      repeat split; auto.
      * apply Forall_app; now split.
      * rewrite length_app. lia.
Qed.

Lemma WaitFor_Running_log (s : St W) :
  exists polls,
    calls (snd (mcnutils.WaitFor (MachineInState state.Running) s))
    = (calls s ++ polls)%list
    /\ Forall Spec.isPoll polls /\ List.length polls <= 60
    /\ (fst (mcnutils.WaitFor (MachineInState state.Running) s) = nil
        \/ fst (mcnutils.WaitFor (MachineInState state.Running) s)
           = Errorf (mcnutils.exceeded 60)).
Proof.
  exact (attempts_log state.Running 60 60 s).
Qed.


Lemma CreateRun_provisioning_only timeout tr r :
  Spec.CreateRun timeout tr r ->
  Forall (fun e => Spec.provisioningCall (ev_call e) = true) tr.
Proof.
  assert (Hpolls : forall polls, Forall Spec.isPoll polls ->
            Forall (fun e => Spec.provisioningCall (ev_call e) = true) polls).
  { intros polls Hp. eapply Forall_impl; [|exact Hp].
    intros e He. unfold Spec.isPoll in He. now rewrite He. }
  intros Hrun. destruct Hrun;
    repeat (apply Forall_cons; [reflexivity|]);
    try apply Forall_app; try split; auto;
    repeat (apply Forall_cons; [reflexivity|]); auto.
Qed.

(** The poll of [Create] is the bounded poll for [Running]. *)
Lemma attempts_PollRunning total left (s : St W) :
  (fst (mcnutils.attempts (MachineInState state.Running) total left s) = nil
   /\ Spec.PollRunning left s true
        (snd (mcnutils.attempts (MachineInState state.Running) total left s)))
  \/ (fst (mcnutils.attempts (MachineInState state.Running) total left s)
      = Errorf (mcnutils.exceeded total)
      /\ Spec.PollRunning left s false
           (snd (mcnutils.attempts (MachineInState state.Running) total left s))).
Proof.
  revert s. induction left as [|left IH]; intro s; simpl.
  - right. split; [reflexivity|constructor].
  - assert (HM : MachineInState state.Running s
                 = (state.eqb (fst (fst (GetState s))) state.Running,
                    snd (GetState s))).
    { unfold MachineInState, bind.
      destruct (GetState s) as [[st err] s1]. reflexivity. }
    unfold bind. rewrite HM.
    destruct (state_eqb_spec (fst (fst (GetState s))) state.Running)
      as [Hrun|Hrun]; simpl.
    + left. split; [reflexivity|]. now apply Spec.PollSeesRunning.
    + destruct (IH (snd (GetState s))) as [[Hr Hp]|[Hr Hp]]; [left|right];
        (split; [exact Hr|]); now apply Spec.PollAgain.
Qed.

Lemma Create_provisions (s : St W) :
  Password (drv s) <> "" ->
  Spec.Provisions s (fst (Create s)) (snd (Create s)).
Proof.
  intro Hpw. unfold Create, bind, get_drv. rewrite (eqb_empty_false _ Hpw).
  destruct (call_method CreateKeyPair createKeyPair s) as [[e1|] s1] eqn:E1;
    simpl.
  { eapply Spec.ProvisionKeyPairFails; eauto. }
  destruct (call_method CreateUHost createUHost s1) as [[e2|] s2] eqn:E2;
    simpl.
  { eapply Spec.ProvisionInstanceFails; eauto. }
  pose proof (attempts_PollRunning 60 60 s2) as Hpoll.
  fold (mcnutils.WaitForSpecific (MachineInState state.Running) 60) in Hpoll.
  fold (mcnutils.WaitFor (MachineInState state.Running)) in Hpoll.
  destruct (mcnutils.WaitFor (MachineInState state.Running) s2) as [e3 s3].
  simpl in Hpoll. destruct Hpoll as [[-> Hp]|[-> Hp]]; simpl.
  2:{ eapply Spec.ProvisionWaitFails; eauto. }
  destruct (call_method CreateUNet createUNet s3) as [[e4|] s4] eqn:E4;
    simpl.
  { eapply Spec.ProvisionNetworkFails; eauto. }
  destruct (call_method UploadKeyPair uploadKeyPair s4) as [[e5|] s5] eqn:E5;
    simpl.
  { eapply Spec.ProvisionUploadFails; eauto. }
  eapply Spec.ProvisionSucceeds; eauto.
Qed.

(** C2.  With a password set, [Create] runs the provisioning sequence
    [Spec.Provisions]: key pair, instance, the poll of at most 60 status
    queries that goes on until one answers [Running], network, upload, each
    step from the state the one before left.  It ends at the first step
    that fails, in the state that step left, with that step's message
    followed by the cause the step returned; only a poll that saw
    [Running] is followed by the network step, and only a poll whose 60
    queries all failed to see it gives the wait error.  The log shows the
    same: the calls of the steps in that order, the steps before the failing
    one succeeded and none after it is called.  Nothing but these five
    helpers is ever called, so no earlier step is undone. *)
Theorem Create_runs_steps_in_order (s : St W) :
  Password (drv s) <> "" ->
  Spec.Provisions s (fst (Create s)) (snd (Create s))
  /\ exists tr,
       calls (snd (Create s)) = (calls s ++ tr)%list
       /\ Spec.CreateRun (mcnutils.exceeded 60) tr (fst (Create s))
       /\ Forall (fun e => Spec.provisioningCall (ev_call e) = true) tr.
Proof.
  intro Hpw. split; [now apply Create_provisions|].
  cut (exists tr, calls (snd (Create s)) = (calls s ++ tr)%list
                  /\ Spec.CreateRun (mcnutils.exceeded 60) tr (fst (Create s))).
  { intros [tr [Hc Hr]]. exists tr. repeat split; auto.
    eapply CreateRun_provisioning_only; eauto. }
  unfold Create, bind, get_drv. rewrite (eqb_empty_false _ Hpw).
  pose proof (call_method_log CreateKeyPair createKeyPair s) as L1.
  destruct (call_method CreateKeyPair createKeyPair s) as [[e1|] s1];
    simpl in L1 |- *.
  { exists [Spec.failed CreateKeyPair e1]. split; [exact L1|constructor]. }
  pose proof (call_method_log CreateUHost createUHost s1) as L2.
  destruct (call_method CreateUHost createUHost s1) as [[e2|] s2];
    simpl in L2 |- *; rewrite L1, <- app_assoc in L2; simpl in L2.
  { exists [Spec.ok CreateKeyPair; Spec.failed CreateUHost e2].
    split; [exact L2|constructor]. }
  destruct (WaitFor_Running_log s2) as [polls [L3 [Hpoll [Hlen Hres]]]].
  destruct (mcnutils.WaitFor (MachineInState state.Running) s2)
    as [[e3|] s3]; simpl in L3, Hres |- *;
    rewrite L2, <- app_assoc in L3; simpl in L3.
  { exists (Spec.ok CreateKeyPair :: Spec.ok CreateUHost :: polls).
    split; [exact L3|].
    destruct Hres as [Hres|Hres]; [discriminate|].
    injection Hres as ->. now constructor. }
  pose proof (call_method_log CreateUNet createUNet s3) as L4.
  destruct (call_method CreateUNet createUNet s3) as [[e4|] s4];
    simpl in L4 |- *; rewrite L3, <- app_assoc in L4; simpl in L4.
  { exists (Spec.ok CreateKeyPair :: Spec.ok CreateUHost
              :: polls ++ [Spec.failed CreateUNet e4])%list.
    split; [exact L4|now constructor]. }
  pose proof (call_method_log UploadKeyPair uploadKeyPair s4) as L5.
  destruct (call_method UploadKeyPair uploadKeyPair s4) as [[e5|] s5];
    simpl in L5 |- *; rewrite L4, <- app_assoc in L5; simpl in L5;
    rewrite <- app_assoc in L5; simpl in L5.
  { exists (Spec.ok CreateKeyPair :: Spec.ok CreateUHost
              :: polls ++ [Spec.ok CreateUNet; Spec.failed UploadKeyPair e5])%list.
    split; [exact L5|now constructor]. }
  exists (Spec.ok CreateKeyPair :: Spec.ok CreateUHost
            :: polls ++ [Spec.ok CreateUNet; Spec.ok UploadKeyPair])%list.
  split; [exact L5|now constructor].
Qed.

End Provisioning.

(** C2, on a provider where every step succeeds. *)
Lemma Create_runs_steps_in_order_witness :
  Spec.Provisions (Fake.start (Fake.driver "pw" "") Fake.happy)
    (fst (Create (Fake.start (Fake.driver "pw" "") Fake.happy)))
    (snd (Create (Fake.start (Fake.driver "pw" "") Fake.happy)))
  /\ exists tr,
       calls (snd (Create (Fake.start (Fake.driver "pw" "") Fake.happy))) = tr
       /\ Spec.CreateRun (mcnutils.exceeded 60) tr
            (fst (Create (Fake.start (Fake.driver "pw" "") Fake.happy))).
Proof.
  destruct (Create_runs_steps_in_order
              (Fake.start (Fake.driver "pw" "") Fake.happy))
    as [Hp [tr [Hc [Hr _]]]].
  - discriminate.
  - split; [exact Hp|]. exists tr. split; [exact Hc | exact Hr].
Defined.



(** * Further properties of the driver *)

(** ** The status query, read backwards *)

Section StatusQuery.
Context {W : Type} `{API : UCloudAPI W}.

(** X1.  A status other than [state.None] is only ever reported with a nil
    error, for a driver with region and instance id, from a description the
    provider returned without error and whose status string the table lists
    for that status; so [GetState] never reports [Paused], [Saved] or
    [Timeout]. *)
Theorem GetState_sound (s : St W) (v : state.State) :
  fst (fst (GetState s)) = v -> v <> state.None ->
  UhostID (drv s) <> "" /\ Region (drv s) <> ""
  /\ snd (fst (GetState s)) = nil
  /\ (exists details,
        fst (fst (getHostDescription (drv s) (world s))) = (Some details, nil)
        /\ In (hd_state details, v) Spec.statusTable)
  /\ v <> state.Paused /\ v <> state.Saved /\ v <> state.Timeout.
Proof.
  unfold GetState. run.
  destruct (UhostID (drv s) =? "") eqn:Eid; simpl; [congruence|].
  destruct (Region (drv s) =? "") eqn:Ereg; simpl; [congruence|].
  apply String.eqb_neq in Eid, Ereg.
  destruct (getHostDescription (drv s) (world s)) as [[[details err] d'] w'].
  simpl. destruct err as [e|]; simpl; [congruence|].
  destruct details as [details|]; simpl; [|congruence].
  destruct (hd_state details =? "") eqn:E0; simpl; [congruence|].
  assert (Hfound : forall k, (hd_state details =? k) = true ->
            In (k, v) Spec.statusTable ->
            exists dt, (Some details, nil) = (Some dt, nil)
                       /\ In (hd_state dt, v) Spec.statusTable).
  { intros k Hk Hin. apply String.eqb_eq in Hk. exists details.
    split; [reflexivity|]. now rewrite Hk. }
  destruct (hd_state details =? "Initializing") eqn:E1; simpl;
    [intros <- _; repeat split; try discriminate; auto;
     apply (Hfound _ E1); simpl; tauto|].
  destruct (hd_state details =? "Starting") eqn:E2; simpl;
    [intros <- _; repeat split; try discriminate; auto;
     apply (Hfound _ E2); simpl; tauto|].
  destruct (hd_state details =? "Rebooting") eqn:E3; simpl;
    [intros <- _; repeat split; try discriminate; auto;
     apply (Hfound _ E3); simpl; tauto|].
  destruct (hd_state details =? "Running") eqn:E4; simpl;
    [intros <- _; repeat split; try discriminate; auto;
     apply (Hfound _ E4); simpl; tauto|].
  destruct (hd_state details =? "Stopped") eqn:E5; simpl;
    [intros <- _; repeat split; try discriminate; auto;
     apply (Hfound _ E5); simpl; tauto|].
  destruct (hd_state details =? "Stopping") eqn:E6; simpl;
    [intros <- _; repeat split; try discriminate; auto;
     apply (Hfound _ E6); simpl; tauto|].
  destruct (hd_state details =? "Install Fail") eqn:E7; simpl;
    [intros <- _; repeat split; try discriminate; auto;
     apply (Hfound _ E7); simpl; tauto|].
  congruence.
Qed.

(** X2.  Whenever [GetState] returns an error the status is [state.None], and
    the error is one of two: the local "region or uhost is empty", with
    nothing called and nothing changed, when the id or the region is empty;
    or "get UHost details failed:" followed by the provider's cause, after
    the one call that failed. *)
Theorem GetState_errors (s : St W) :
  snd (fst (GetState s)) <> nil ->
  fst (fst (GetState s)) = state.None
  /\ (((UhostID (drv s) = "" \/ Region (drv s) = "")
       /\ GetState s = ((state.None, Errorf "region or uhost is empty"), s))
      \/ (UhostID (drv s) <> "" /\ Region (drv s) <> ""
          /\ exists cause,
               snd (fst (fst (getHostDescription (drv s) (world s))))
               = Some cause
               /\ snd (fst (GetState s))
                  = Errorf ("get UHost details failed:" ++ cause)
               /\ calls (snd (GetState s))
                  = (calls s ++ [Spec.failed GetHostDescription cause])%list)).
Proof.
  destruct (UhostID (drv s) =? "") eqn:Eid.
  { apply String.eqb_eq in Eid.
    rewrite (GetState_without_id s (or_introl Eid)). simpl. intros _.
    split; [reflexivity|]. left. split; [now left|reflexivity]. }
  destruct (Region (drv s) =? "") eqn:Ereg.
  { apply String.eqb_eq in Ereg.
    rewrite (GetState_without_id s (or_intror Ereg)). simpl. intros _.
    split; [reflexivity|]. left. split; [now right|reflexivity]. }
  unfold GetState. run. rewrite Eid, Ereg. simpl.
  apply String.eqb_neq in Eid, Ereg.
  destruct (getHostDescription (drv s) (world s)) as [[[details err] d'] w'].
  simpl. destruct err as [e|]; simpl.
  - intros _. split; [reflexivity|]. right. repeat split; auto.
    exists e. repeat split.
  - intro H. now elim H.
Qed.
End StatusQuery.

Lemma GetState_sound_witness :
  UhostID (Fake.driver "pw" "uhost-1") <> ""
  /\ In ("Install Fail", state.Error) Spec.statusTable.
Proof.
  destruct (GetState_sound
              (Fake.start (Fake.driver "pw" "uhost-1") (Fake.stuck "Install Fail"))
              state.Error) as [Hid _].
  - reflexivity.
  - discriminate.
  - split; [exact Hid | simpl; tauto].
Defined.

Lemma GetState_errors_witness :
  snd (fst (GetState (Fake.start (Fake.driver "pw" "uhost-1")
                        (Fake.unreachable "403 Forbidden"))))
  = Errorf "get UHost details failed:403 Forbidden".
Proof.
  destruct (GetState_errors
              (Fake.start (Fake.driver "pw" "uhost-1")
                 (Fake.unreachable "403 Forbidden")))
    as [_ [[[Hid|Hreg] _] | [_ [_ [cause [Hc [He _]]]]]]].
  - discriminate.
  - discriminate Hid.
  - discriminate Hreg.
  - rewrite He. simpl in Hc. injection Hc as <-. reflexivity.
Defined.

(** ** The SSH user *)

Section SSHUserName.
Context {W : Type}.

(** X3.  [GetSSHUsername] never returns the empty name: it returns the stored
    user, or "root" when none is stored, and in that case stores "root" in
    the driver.  Asking again returns the same name and changes nothing;
    the provider is never called. *)
Theorem GetSSHUsername_default (s : St W) :
  fst (GetSSHUsername s) <> ""
  /\ fst (GetSSHUsername s)
     = (if SSHUser (drv s) =? "" then "root" else SSHUser (drv s))
  /\ SSHUser (drv (snd (GetSSHUsername s))) = fst (GetSSHUsername s)
  /\ GetSSHUsername (snd (GetSSHUsername s))
     = (fst (GetSSHUsername s), snd (GetSSHUsername s))
  /\ calls (snd (GetSSHUsername s)) = calls s
  /\ world (snd (GetSSHUsername s)) = world s.
Proof.
  unfold GetSSHUsername. run.
  destruct (SSHUser (drv s) =? "") eqn:E; simpl.
  - repeat split; discriminate.
  - rewrite E. simpl. apply String.eqb_neq in E. repeat split; auto.
Qed.
End SSHUserName.

(** ** More on the configuration from the flags *)

Section ConfigurationMore.
Context {W : Type} `{API : UCloudAPI W}.
Variable ToLower : string -> string.

(** X4.  [SetConfigFromFlags] succeeds exactly when the region flag validates
    and both key flags are non-empty; the password flag plays no part. *)
Theorem SetConfigFromFlags_succeeds_iff flags (s : St W) :
  fst (SetConfigFromFlags ToLower flags s) = nil
  <-> (snd (validateUCloudRegion (drivers.String flags "ucloud-region")) = nil
       /\ drivers.String flags "ucloud-public-key" <> ""
       /\ drivers.String flags "ucloud-private-key" <> "").
Proof.
  unfold SetConfigFromFlags.
  destruct (validateUCloudRegion _) as [region [e|]]; run.
  { split; [discriminate|]. intros [H _]. discriminate H. }
  destruct (drivers.String flags "ucloud-public-key" =? "") eqn:Epub; simpl.
  { apply String.eqb_eq in Epub. split; [discriminate|].
    intros [_ [H _]]. now elim H. }
  destruct (drivers.String flags "ucloud-private-key" =? "") eqn:Epriv; simpl.
  { apply String.eqb_eq in Epriv. split; [discriminate|].
    intros [_ [_ H]]. now elim H. }
  apply String.eqb_neq in Epub, Epriv.
  unfold SSHUser; simpl.
  destruct (ToLower _ =? ""); simpl; split; auto.
Qed.

(** X5.  After a successful [SetConfigFromFlags] the region is the validated
    one; the image is the flag's, or the default image when the flag is
    empty; the SSH user is the lower-cased flag, or "root" when that is
    empty; so neither image nor user is empty.  Security group and
    private-address mode are the flags'. *)
Theorem SetConfigFromFlags_defaults flags (s : St W) :
  fst (SetConfigFromFlags ToLower flags s) = nil ->
  let d := drv (snd (SetConfigFromFlags ToLower flags s)) in
  Region d = fst (validateUCloudRegion (drivers.String flags "ucloud-region"))
  /\ ImageId d
     = (if drivers.String flags "ucloud-imageid" =? "" then "uimage-5yt2b0"
        else drivers.String flags "ucloud-imageid")
  /\ ImageId d <> ""
  /\ SSHUser d
     = (if ToLower (drivers.String flags "ucloud-ssh-user") =? "" then "root"
        else ToLower (drivers.String flags "ucloud-ssh-user"))
  /\ SSHUser d <> ""
  /\ SecurityGroupName d = drivers.String flags "ucloud-security-group"
  /\ PrivateIPOnly d = drivers.Bool flags "ucloud-private-address-only".
Proof.
  unfold SetConfigFromFlags.
  destruct (validateUCloudRegion _) as [region [e|]]; run; [discriminate|].
  destruct (drivers.String flags "ucloud-public-key" =? ""); [discriminate|].
  simpl.
  destruct (drivers.String flags "ucloud-private-key" =? ""); [discriminate|].
  simpl. unfold SSHUser; simpl.
  assert (Himg : forall img : string,
            (if Nat.eqb (String.length img) 0 then defaultImageId else img)
            = (if img =? "" then "uimage-5yt2b0" else img)
            /\ (if Nat.eqb (String.length img) 0 then defaultImageId else img)
               <> "").
  { intros [|c img]; simpl; split; try reflexivity; discriminate. }
  destruct (Himg (drivers.String flags "ucloud-imageid")) as [Hi1 Hi2].
  destruct (ToLower (drivers.String flags "ucloud-ssh-user") =? "") eqn:Eu;
    simpl; intros _; repeat split; auto; try discriminate.
  now apply String.eqb_neq in Eu.
Qed.

(** X6.  Whether it succeeds or fails, [SetConfigFromFlags] leaves the instance
    id, the addresses, the machine name and the sizing of the driver as
    they were, and calls nothing. *)
Theorem SetConfigFromFlags_keeps_instance flags (s : St W) :
  let d := drv s in
  let d' := drv (snd (SetConfigFromFlags ToLower flags s)) in
  UhostID d' = UhostID d /\ IPAddress d' = IPAddress d
  /\ PrivateIPAddress d' = PrivateIPAddress d
  /\ MachineName d' = MachineName d
  /\ CPU d' = CPU d /\ Memory d' = Memory d /\ DiskSpace d' = DiskSpace d
  /\ SecurityGroupId d' = SecurityGroupId d
  /\ calls (snd (SetConfigFromFlags ToLower flags s)) = calls s
  /\ world (snd (SetConfigFromFlags ToLower flags s)) = world s.
Proof.
  unfold SetConfigFromFlags.
  destruct (validateUCloudRegion _) as [region [e|]]; run;
    [repeat split|].
  destruct (drivers.String flags "ucloud-public-key" =? ""); simpl;
    [repeat split|].
  destruct (drivers.String flags "ucloud-private-key" =? ""); simpl;
    [repeat split|].
  unfold SSHUser; simpl.
  destruct (ToLower _ =? ""); simpl; repeat split.
Qed.

(** X7.  A failing [SetConfigFromFlags] is not atomic.  A region that does not
    validate leaves the driver untouched; but when the public key is
    missing the driver's region has already been replaced and its public
    key emptied, and when the private key is missing region and public key
    have been replaced and the private key emptied.  The fields set later
    (image, user, password, port) keep their old values. *)
Theorem SetConfigFromFlags_partial_update flags (s : St W) :
  let r := validateUCloudRegion (drivers.String flags "ucloud-region") in
  let pub := drivers.String flags "ucloud-public-key" in
  let after d := mkSt d (world s) (calls s) in
  (snd r <> nil -> SetConfigFromFlags ToLower flags s = (snd r, s))
  /\ (snd r = nil -> pub = "" ->
      snd (SetConfigFromFlags ToLower flags s)
      = after (set_PublicKey "" (set_Region (fst r) (drv s))))
  /\ (snd r = nil -> pub <> "" ->
      drivers.String flags "ucloud-private-key" = "" ->
      snd (SetConfigFromFlags ToLower flags s)
      = after (set_PrivateKey ""
                 (set_PublicKey pub (set_Region (fst r) (drv s))))).
Proof.
  cbv zeta. unfold SetConfigFromFlags.
  destruct (validateUCloudRegion _) as [region [e|]]; run.
  { repeat split; intros; try discriminate. }
  repeat split.
  - intro H. now elim H.
  - intros _ Hpub. rewrite Hpub. reflexivity.
  - intros _ Hpub Hpriv. rewrite (eqb_empty_false _ Hpub). simpl.
    rewrite Hpriv. reflexivity.
Qed.

(** X8.  Configuring twice with the same flags is the same as configuring
    once, whether the configuration succeeds or fails. *)
Theorem SetConfigFromFlags_idempotent flags (s : St W) :
  SetConfigFromFlags ToLower flags (snd (SetConfigFromFlags ToLower flags s))
  = SetConfigFromFlags ToLower flags s.
Proof.
  unfold SetConfigFromFlags.
  destruct (validateUCloudRegion _) as [region [e|]]; run; [reflexivity|].
  destruct (drivers.String flags "ucloud-public-key" =? "") eqn:Epub; simpl;
    [now rewrite ?Epub|].
  destruct (drivers.String flags "ucloud-private-key" =? "") eqn:Epriv; simpl;
    [now rewrite ?Epub, ?Epriv|].
  unfold SSHUser; simpl.
  destruct (ToLower _ =? "") eqn:Eu; simpl;
    rewrite ?Epub; simpl; rewrite ?Epriv; simpl;
    unfold SSHUser; simpl; rewrite ?Eu; reflexivity.
Qed.

(** X9.  [SetConfigFromFlags] reads declared flags only: two sets of flags that
    agree on the string and boolean values of the flags [GetCreateFlags]
    declares configure the driver alike. *)
Theorem SetConfigFromFlags_reads_declared_flags flags flags' (s : St W) :
  (forall name,
     In name (map mcnflag.Name (GetCreateFlags (drv s))) ->
     drivers.String flags name = drivers.String flags' name
     /\ drivers.Bool flags name = drivers.Bool flags' name) ->
  SetConfigFromFlags ToLower flags s = SetConfigFromFlags ToLower flags' s.
Proof.
  intro Hagree. unfold SetConfigFromFlags.
  assert (Hs : forall name,
            In name (map mcnflag.Name (GetCreateFlags (drv s))) ->
            drivers.String flags' name = drivers.String flags name)
    by (intros name Hin; symmetry; apply (Hagree name Hin)).
  assert (Hb : drivers.Bool flags' "ucloud-private-address-only"
               = drivers.Bool flags "ucloud-private-address-only")
    by (symmetry; apply Hagree; simpl; tauto).
  rewrite (Hs "ucloud-region") by (simpl; tauto).
  rewrite (Hs "ucloud-public-key") by (simpl; tauto).
  rewrite (Hs "ucloud-private-key") by (simpl; tauto).
  rewrite (Hs "ucloud-imageid") by (simpl; tauto).
  rewrite (Hs "ucloud-security-group") by (simpl; tauto).
  rewrite (Hs "ucloud-ssh-user") by (simpl; tauto).
  rewrite (Hs "ucloud-user-password") by (simpl; tauto).
  rewrite Hb. reflexivity.
Qed.

(** Past the password check, [Create] starts with the key pair. *)
Lemma Create_runs_order_prefix (s : St W) :
  Password (drv s) <> "" ->
  exists rest,
    calls (snd (Create s))
    = (calls s ++ mkEvent CreateKeyPair
                    (fst (call_method CreateKeyPair createKeyPair s))
               :: rest)%list.
Proof.
  intro Hpw. unfold Create, bind, get_drv. rewrite (eqb_empty_false _ Hpw).
  pose proof (call_method_log CreateKeyPair createKeyPair s) as L1.
  destruct (call_method CreateKeyPair createKeyPair s) as [[e1|] s1];
    simpl in L1 |- *.
  { exists []. exact L1. }
  pose proof (call_method_log CreateUHost createUHost s1) as L2.
  destruct (call_method CreateUHost createUHost s1) as [e2 s2].
  simpl in L2. rewrite L1, <- app_assoc in L2. simpl in L2.
  destruct e2 as [e2|]; simpl.
  { eexists. exact L2. }
  destruct (WaitFor_Running_log s2) as [polls [L3 _]].
  destruct (mcnutils.WaitFor (MachineInState state.Running) s2) as [e3 s3].
  simpl in L3. rewrite L2, <- app_assoc in L3. simpl in L3.
  destruct e3 as [e3|]; simpl.
  { eexists. exact L3. }
  pose proof (call_method_log CreateUNet createUNet s3) as L4.
  destruct (call_method CreateUNet createUNet s3) as [e4 s4].
  simpl in L4. rewrite L3, <- app_assoc in L4. simpl in L4.
  destruct e4 as [e4|]; simpl.
  { eexists. exact L4. }
  pose proof (call_method_log UploadKeyPair uploadKeyPair s4) as L5.
  destruct (call_method UploadKeyPair uploadKeyPair s4) as [e5 s5].
  simpl in L5. rewrite L4, <- app_assoc in L5. simpl in L5.
  destruct e5 as [e5|]; simpl; eexists; exact L5.
Qed.

(** X10.  [SetConfigFromFlags] accepts an empty password, and [Create] on the
    driver it has configured then stops before any call; with a non-empty
    password flag [Create] goes on to create the key pair. *)
Theorem configured_Create_needs_password flags (s : St W) :
  fst (SetConfigFromFlags ToLower flags s) = nil ->
  let s' := snd (SetConfigFromFlags ToLower flags s) in
  (drivers.String flags "ucloud-user-password" = "" ->
   Create s'
   = (Errorf "ucloud driver requires --ucloud-user-password options.", s'))
  /\ (drivers.String flags "ucloud-user-password" <> "" ->
      exists rest,
        calls (snd (Create s'))
        = (calls s ++ mkEvent CreateKeyPair
                        (fst (call_method CreateKeyPair createKeyPair s'))
                   :: rest)%list).
Proof.
  intro Hok. cbv zeta.
  destruct (SetConfigFromFlags_success ToLower flags s Hok)
    as [_ [_ [_ [_ [Hpw _]]]]].
  destruct (SetConfigFromFlags_local ToLower flags s) as [Hcalls _].
  split.
  - intro Hempty. apply Create_without_password. now rewrite Hpw.
  - intro Hset. rewrite <- Hpw in Hset.
    destruct (Create_runs_order_prefix
                (snd (SetConfigFromFlags ToLower flags s)) Hset) as [rest Hr].
    exists rest. now rewrite Hr, Hcalls.
Qed.
End ConfigurationMore.

Lemma SetConfigFromFlags_succeeds_iff_witness :
  fst (SetConfigFromFlags Fake.toLower (Fake.flags "public" "private" "" 22)
         (Fake.start (NewDriver "m1" "/tmp") Fake.happy)) = nil.
Proof.
  apply (SetConfigFromFlags_succeeds_iff Fake.toLower
           (Fake.flags "public" "private" "" 22)
           (Fake.start (NewDriver "m1" "/tmp") Fake.happy)).
  repeat split; discriminate.
Defined.

Lemma SetConfigFromFlags_defaults_witness :
  let d := drv (snd (SetConfigFromFlags Fake.toLower
                       (Fake.flags "public" "private" "pw" 22)
                       (Fake.start (NewDriver "m1" "/tmp") Fake.happy))) in
  ImageId d = "uimage-5yt2b0" /\ SSHUser d = "root".
Proof.
  pose proof (SetConfigFromFlags_defaults Fake.toLower
                (Fake.flags "public" "private" "pw" 22)
                (Fake.start (NewDriver "m1" "/tmp") Fake.happy) eq_refl) as H.
  cbv zeta in H |- *. destruct H as [_ [Himg [_ [Huser _]]]].
  split; [exact Himg | exact Huser].
Defined.

Lemma SetConfigFromFlags_partial_update_witness :
  PublicKey (drv (snd (SetConfigFromFlags Fake.toLower
                         (Fake.flags "" "private" "pw" 22)
                         (Fake.start (Fake.driver "pw" "uhost-1") Fake.happy))))
  = "".
Proof.
  pose proof (SetConfigFromFlags_partial_update Fake.toLower
                (Fake.flags "" "private" "pw" 22)
                (Fake.start (Fake.driver "pw" "uhost-1") Fake.happy)) as H.
  cbv zeta in H. destruct H as [_ [Hpub _]].
  rewrite (Hpub eq_refl eq_refl). reflexivity.
Defined.

Lemma SetConfigFromFlags_reads_declared_flags_witness :
  SetConfigFromFlags Fake.toLower (Fake.flags "public" "private" "pw" 22)
    (Fake.start (NewDriver "m1" "/tmp") Fake.happy)
  = SetConfigFromFlags Fake.toLower
      (drivers.mkDriverOptions
         (fun name => if name =? "verbose" then "yes"
                      else drivers.String (Fake.flags "public" "private" "pw" 22)
                             name)
         (fun _ => 0%Z)
         (fun name => name =? "debug"))
      (Fake.start (NewDriver "m1" "/tmp") Fake.happy).
Proof.
  apply SetConfigFromFlags_reads_declared_flags.
  intros name Hin. simpl in Hin.
  repeat (destruct Hin as [<-|Hin]; [split; reflexivity|]).
  destruct Hin.
Defined.

Lemma configured_Create_needs_password_witness :
  fst (Create (snd (SetConfigFromFlags Fake.toLower
                      (Fake.flags "public" "private" "" 22)
                      (Fake.start (NewDriver "m1" "/tmp") Fake.happy))))
  = Errorf "ucloud driver requires --ucloud-user-password options.".
Proof.
  pose proof (configured_Create_needs_password Fake.toLower
                (Fake.flags "public" "private" "" 22)
                (Fake.start (NewDriver "m1" "/tmp") Fake.happy) eq_refl) as H.
  cbv zeta in H. destruct H as [Hempty _].
  rewrite (Hempty eq_refl). reflexivity.
Defined.

(** ** More on the provisioning sequence *)

Section ProvisioningMore.
Context {W : Type} `{API : UCloudAPI W}.




Lemma attempts_without_id total left (s : St W) :
  UhostID (drv s) = "" \/ Region (drv s) = "" ->
  mcnutils.attempts (MachineInState state.Running) total left s
  = (Errorf (mcnutils.exceeded total), s).
Proof.
  intro Hid. induction left as [|left IH]; simpl; [reflexivity|].
  unfold bind, MachineInState at 1, bind.
  rewrite (GetState_without_id s Hid). simpl. exact IH.
Qed.

(** X12.  When [createUHost] succeeds but leaves the driver without an instance
    id (or without a region), the poll cannot ask the provider anything:
    all its attempts fail locally, and [Create] ends with the time-out
    error without a single status query. *)
Theorem Create_without_recorded_id (s s1 s2 : St W) :
  Password (drv s) <> "" ->
  call_method CreateKeyPair createKeyPair s = (nil, s1) ->
  call_method CreateUHost createUHost s1 = (nil, s2) ->
  UhostID (drv s2) = "" \/ Region (drv s2) = "" ->
  Create s
  = (Errorf "wait for machine running failed: Maximum number of retries (60) exceeded",
     s2)
  /\ calls s2
     = (calls s ++ [Spec.ok CreateKeyPair; Spec.ok CreateUHost])%list.
Proof.
  intros Hpw H1 H2 Hid. split.
  - unfold Create, bind, get_drv. rewrite (eqb_empty_false _ Hpw).
    rewrite H1. simpl. rewrite H2. simpl.
    unfold mcnutils.WaitFor, mcnutils.WaitForSpecific.
    rewrite (attempts_without_id 60 60 s2 Hid). reflexivity.
  - pose proof (call_method_log CreateKeyPair createKeyPair s) as L1.
    pose proof (call_method_log CreateUHost createUHost s1) as L2.
    rewrite H1 in L1. rewrite H2 in L2. simpl in L1, L2.
    rewrite L2, L1, <- app_assoc. reflexivity.
Qed.
End ProvisioningMore.


Lemma Create_without_recorded_id_witness :
  calls (snd (Create (Fake.start (Fake.driver "pw" "")
                        (Fake.mkWorld nil nil "" [] (Fake.status "Running")
                           nil "10.10.0.7" nil nil))))
  = [Spec.ok CreateKeyPair; Spec.ok CreateUHost].
Proof.
  destruct (Create_without_recorded_id
              (Fake.start (Fake.driver "pw" "")
                 (Fake.mkWorld nil nil "" [] (Fake.status "Running")
                    nil "10.10.0.7" nil nil))
              _ _ ltac:(discriminate) eq_refl eq_refl)
    as [Hrun Hcalls].
  - left. reflexivity.
  - rewrite Hrun. exact Hcalls.
Defined.

(** ** More on the lifecycle operations *)

Section LifecycleMore.
Context {W : Type} `{API : UCloudAPI W}.

Lemma log_grows (l : list Event) (e : Event) : (l ++ [e])%list <> l.
Proof.
  intro H. apply (f_equal (@List.length Event)) in H.
  rewrite length_app in H. simpl in H. lia.
Qed.

(** X13.  [Start], [Remove], [Restart] and [Kill] are each exactly one call, made
    with the driver's region and instance id, and so is [Stop] once an id
    is recorded.  The operation returns nil exactly when that call does,
    and never changes the driver: in particular [Remove] leaves the
    instance id in place. *)
Theorem lifecycle_single_call (s : St W) :
  let d := drv s in
  let one (op : M W error) (c : Call) (f : W -> error * W) :=
    snd (op s) = mkSt d (snd (f (world s)))
                   (calls s ++ [mkEvent c (fst (f (world s)))])
    /\ (fst (op s) = nil <-> fst (f (world s)) = nil) in
  one Start (StartUHost (Region d) (UhostID d))
    (startUHost (Region d) (UhostID d))
  /\ one Remove (TerminateUHost (Region d) (UhostID d))
       (terminateUHost (Region d) (UhostID d))
  /\ one Restart (RebootUHost (Region d) (UhostID d))
       (rebootUHost (Region d) (UhostID d))
  /\ one Kill (KillUHost (Region d) (UhostID d))
       (killUHost (Region d) (UhostID d))
  /\ (UhostID d <> "" ->
      one Stop (StopUHost (Region d) (UhostID d))
        (stopUHost (Region d) (UhostID d))).
Proof.
  cbv zeta. split; [|split; [|split; [|split]]].
  - unfold Start. run.
    destruct (startUHost _ _ _) as [[e|] w']; simpl;
      (split; [reflexivity | split; intro; (discriminate || reflexivity)]).
  - unfold Remove. run.
    destruct (terminateUHost _ _ _) as [[e|] w']; simpl;
      (split; [reflexivity | split; intro; (discriminate || reflexivity)]).
  - unfold Restart. run.
    destruct (rebootUHost _ _ _) as [[e|] w']; simpl;
      (split; [reflexivity | split; intro; (discriminate || reflexivity)]).
  - unfold Kill. run.
    destruct (killUHost _ _ _) as [[e|] w']; simpl;
      (split; [reflexivity | split; intro; (discriminate || reflexivity)]).
  - intro Hid. unfold Stop. run.
    destruct (Nat.eqb (String.length (UhostID (drv s))) 0) eqn:E.
    { apply length_zero_empty in E. contradiction. }
    destruct (stopUHost _ _ _) as [[e|] w']; simpl;
      (split; [reflexivity | split; intro; (discriminate || reflexivity)]).
Qed.

(** X14.  After [Remove] the driver still holds the instance id, even when the
    provider confirmed the removal: a later [GetState] or [Stop] does not
    fail locally but calls the provider about that instance. *)
Theorem Remove_keeps_instance_id (s : St W) :
  UhostID (drv s) <> "" -> Region (drv s) <> "" ->
  let s' := snd (Remove s) in
  UhostID (drv s') = UhostID (drv s)
  /\ ~ Spec.failsBeforeAnyCall snd GetState s'
  /\ ~ Spec.failsBeforeAnyCall (fun e => e) Stop s'.
Proof.
  intros Hid Hreg. cbv zeta.
  assert (Hdrv : drv (snd (Remove s)) = drv s).
  { unfold Remove. run.
    destruct (terminateUHost _ _ _) as [[e|] w']; reflexivity. }
  split; [now rewrite Hdrv|]. split.
  - intros [_ [Hcalls _]]. revert Hcalls.
    unfold GetState. run. rewrite Hdrv.
    rewrite (eqb_empty_false _ Hid), (eqb_empty_false _ Hreg). simpl.
    destruct (getHostDescription _ _) as [[[details err] d'] w'].
    destruct err; simpl; apply log_grows.
  - intros [_ [Hcalls _]]. revert Hcalls.
    unfold Stop. run. rewrite Hdrv.
    destruct (Nat.eqb (String.length (UhostID (drv s))) 0) eqn:E.
    { apply length_zero_empty in E. contradiction. }
    destruct (stopUHost _ _ _) as [[e|] w']; simpl; apply log_grows.
Qed.

(** X15.  A driver fresh from [NewDriver] has no address, no instance id and no
    password: [GetIP], [GetURL], [GetState], [Stop] and [Create] all fail on
    it before any call, whatever the names it was created with. *)
Theorem NewDriver_needs_configuration (hostName artifactPath : string)
    (w : W) (log : list Event) :
  let s := mkSt (NewDriver hostName artifactPath) w log in
  Spec.failsBeforeAnyCall snd GetIP s
  /\ Spec.failsBeforeAnyCall snd GetURL s
  /\ Spec.failsBeforeAnyCall snd GetState s
  /\ Spec.failsBeforeAnyCall (fun e => e) Stop s
  /\ Spec.failsBeforeAnyCall (fun e => e) Create s.
Proof.
  cbv zeta. unfold Spec.failsBeforeAnyCall.
  repeat split; discriminate.
Qed.
End LifecycleMore.

Lemma lifecycle_single_call_witness :
  snd (Stop (Fake.start (Fake.driver "pw" "uhost-1") Fake.happy))
  = mkSt (Fake.driver "pw" "uhost-1") Fake.happy
      [Spec.ok (StopUHost "cn-north-03" "uhost-1")].
Proof.
  pose proof (lifecycle_single_call
                (Fake.start (Fake.driver "pw" "uhost-1") Fake.happy)) as H.
  cbv zeta in H. destruct H as [_ [_ [_ [_ Hstop]]]].
  destruct Hstop as [Hsnd _]; [discriminate|].
  rewrite Hsnd. reflexivity.
Defined.

Lemma Remove_keeps_instance_id_witness :
  UhostID (drv (snd (Remove (Fake.start (Fake.driver "pw" "uhost-1") Fake.happy))))
  = "uhost-1".
Proof.
  destruct (Remove_keeps_instance_id
              (Fake.start (Fake.driver "pw" "uhost-1") Fake.happy))
    as [Hid _].
  - discriminate.
  - discriminate.
  - rewrite Hid. reflexivity.
Defined.
